(** * cuponera backend: the Flask application of [backend/app.py]

    The application is a 28-line Flask program: it serves the pre-built
    front-end from the static folder [build], answers a health probe and
    sends every 404 back to [index.html].  What the program does is decided
    by the few library functions it calls, so these are embedded here as
    well, each one after the Python function it stands for:

    - [posixpath.normpath], [posixpath.join], [posixpath.basename];
    - Werkzeug's [safe_join], [send_from_directory], [send_file] and the URL
      matcher, specialised to the three rules of this application;
    - Flask's request dispatch ([dispatch_request], [handle_user_exception],
      [make_response], [wsgi_app]);
    - Python's [int] on a [str].

    Modelling choices.
    - A [str] is a [string] of one-byte characters, read as the code points
      U+0000..U+00FF.
    - The file system is a function from path strings to what the operating
      system finds there; how the operating system walks a path (symbolic
      links included) is inside that function.
    - A regular file is one the server process may read: a failure of
      [open] on a regular file (permissions) has no counterpart here.
    - A request is a GET request given by its decoded URL path ([PATH_INFO]);
      conditional and range headers are not part of a request here.
    - The body of a response keeps what it was made from, the bytes of a
      file or the JSON document given to [jsonify]; the serialisation of
      the document is not modelled.
    - The platform is POSIX ([os.path] is [posixpath], no alternative
      separator). *)

From Stdlib Require Import Strings.String Strings.Ascii Lists.List ZArith Lia Bool.
From Stdlib Require Strings.Byte.
Import ListNotations.

Local Open Scope list_scope.
Local Open Scope string_scope.

(** ** Python [str] operations used by the library code *)

Module PyStr.

Definition sep : ascii := "/"%char.

(** [s.startswith(p)] *)
Definition startswith (s p : string) : bool := String.prefix p s.

(** [s.endswith("/")] *)
Fixpoint endswith_sep (s : string) : bool :=
  match s with
  | EmptyString => false
  | String c EmptyString => Ascii.eqb c sep
  | String _ s' => endswith_sep s'
  end.

(** [s.lstrip("/")] *)
Fixpoint lstrip_sep (s : string) : string :=
  match s with
  | String c s' => if Ascii.eqb c sep then lstrip_sep s' else s
  | EmptyString => EmptyString
  end.

(** [s.split("/")]: never empty, [""] splits to [[""]]. *)
Fixpoint split (s : string) : list string :=
  match s with
  | EmptyString => [EmptyString]
  | String c s' =>
      if Ascii.eqb c sep then EmptyString :: split s'
      else match split s' with
           | [] => [String c EmptyString]
           | h :: t => String c h :: t
           end
  end.

(** ["/".join(l)] *)
Fixpoint join (l : list string) : string :=
  match l with
  | [] => EmptyString
  | [x] => x
  | x :: rest => x ++ String sep (join rest)
  end.

(** ["/" in s] *)
Fixpoint has_sep (s : string) : bool :=
  match s with
  | EmptyString => false
  | String c s' => Ascii.eqb c sep || has_sep s'
  end.

(** ["/" * n] *)
Fixpoint seps (n : nat) : string :=
  match n with
  | O => EmptyString
  | S n' => String sep (seps n')
  end.

End PyStr.

(** ** [posixpath] *)

Module posixpath.
Import PyStr.

Definition isabs (s : string) : bool := startswith s "/".

(** [posixpath.join(a, b)] with one component [b]. *)
Definition join (a b : string) : string :=
  if startswith b "/" then b
  else if (a =? "") || endswith_sep a then a ++ b
  else a ++ String sep b.

Definition is_nil {A} (l : list A) : bool :=
  match l with [] => true | _ => false end.

(** One turn of the loop of [normpath] over the components: [new_comps]
    is the Python list, appended to and popped at its end. *)
Definition norm_step (initial_slashes : nat) (new_comps : list string)
    (comp : string) : list string :=
  if (comp =? "") || (comp =? ".") then new_comps
  else if negb (comp =? "..")
          || (Nat.eqb initial_slashes 0 && is_nil new_comps)
          || (negb (is_nil new_comps) && (last new_comps "" =? ".."))
       then (new_comps ++ [comp])%list
       else if negb (is_nil new_comps) then removelast new_comps
            else new_comps.

Definition initial_slashes (path : string) : nat :=
  if startswith path "/" then
    if startswith path "//" && negb (startswith path "///") then 2 else 1
  else 0.

Definition normpath (path : string) : string :=
  if path =? "" then "."
  else
    let n := initial_slashes path in
    let comps := fold_left (norm_step n) (split path) [] in
    let path' := seps n ++ PyStr.join comps in
    if path' =? "" then "." else path'.

(** [posixpath.basename(p)]: what follows the last ["/"]. *)
Definition basename (p : string) : string := last (split p) "".

End posixpath.


(** ** The file system, exceptions and the monad of request handling *)

Inductive node : Type :=
| File (content : list Byte.byte)   (* a regular file and its bytes *)
| Dir.                              (* anything else that exists *)

(** What the operating system finds at a path string. *)
Definition filesystem : Type := string -> option node.

Inductive exn : Type :=
| NotFound                            (* werkzeug.exceptions.NotFound, 404 *)
| RequestRedirect (new_path : string) (* werkzeug.routing.RequestRedirect, 308 *)
| OSError                             (* open() of what is not a regular file *)
| ValueError.                         (* int() of what is not a number *)

Inductive result (A : Type) : Type :=
| Ok (a : A)
| Raise (e : exn).
Arguments Ok {A} a.
Arguments Raise {A} e.

(** A computation over a state [St] (the file system for a request, the
    process for the start-up) returns or raises, and hands the state on. *)
Definition M (St A : Type) : Type := St -> result A * St.

Definition ret {St A} (a : A) : M St A := fun st => (Ok a, st).
Definition raise {St A} (e : exn) : M St A := fun st => (Raise e, st).
Definition bind {St A B} (c : M St A) (k : A -> M St B) : M St B :=
  fun st => match c st with
            | (Ok a, st') => k a st'
            | (Raise e, st') => (Raise e, st')
            end.
(** [try: c except Exception as e: h(e)] *)
Definition try_except {St A} (c : M St A) (h : exn -> M St A) : M St A :=
  fun st => match c st with
            | (Ok a, st') => (Ok a, st')
            | (Raise e, st') => h e st'
            end.
Definition lift {St A} (r : result A) : M St A := fun st => (r, st).

Notation "x <- c ;; k" := (bind c (fun x => k))
  (at level 61, c at next level, right associativity).

(** A request handler only has the file system to work on. *)
Definition IO (A : Type) : Type := M filesystem A.

Module os_path.
Definition isfile (p : string) : IO bool :=
  fun fs => (Ok match fs p with Some (File _) => true | _ => false end, fs).
Definition exists_ (p : string) : IO bool :=
  fun fs => (Ok match fs p with Some _ => true | None => false end, fs).
End os_path.

(** [open(p, "rb").read()] *)
Definition read_bytes (p : string) : IO (list Byte.byte) :=
  fun fs => (match fs p with Some (File b) => Ok b | _ => Raise OSError end, fs).

(** ** Responses *)

#[local] Unset Elimination Schemes.
Inductive json : Type :=
| JStr (s : string)
| JObj (members : list (string * json)).
#[local] Set Elimination Schemes.

Inductive body : Type :=
| FileBytes (data : list Byte.byte)  (* the bytes of a served file *)
| JsonBody (j : json)                (* the JSON document of [jsonify] *)
| RedirectPage (new_path : string)   (* the page of a redirect *)
| ErrorPage.                         (* the page of an unhandled exception *)

Record response : Type := mkResponse {
  status : Z;
  mimetype : string;
  data : body
}.

(** What a Flask view may return, as far as this application does. *)
Inductive view_rv : Type :=
| RvResponse (r : response)
| RvDict (j : json)
| RvDictStatus (j : json) (code : Z).

Module flask.

(** [jsonify(obj)]: a 200 response of type [application/json]. *)
Definition jsonify (j : json) : response :=
  mkResponse 200 "application/json" (JsonBody j).

(** [Flask.make_response(rv)]: a response object is kept as it is, a dict
    goes through [jsonify], a status given in a tuple replaces the
    response's status. *)
Definition make_response (rv : view_rv) : response :=
  match rv with
  | RvResponse r => r
  | RvDict j => jsonify j
  | RvDictStatus j code =>
      let r := jsonify j in mkResponse code (mimetype r) (data r)
  end.

End flask.

(** ** Werkzeug *)

Module werkzeug.
Import PyStr.

(** [safe_join(directory, filename)] with one untrusted [filename]. *)
Definition safe_join (directory filename : string) : option string :=
  let directory := if directory =? "" then "." else directory in
  let filename :=
    if negb (filename =? "") then posixpath.normpath filename else filename in
  if posixpath.isabs filename
     || startswith filename "/"
     || (filename =? "..")
     || startswith filename "../"
  then None
  else Some (posixpath.join directory filename).

(** The mimetype [send_file] gives a file name: the guess of
    [mimetypes], else [application/octet-stream]. *)
Definition mimetype_of (guess_type : string -> option string)
    (name : string) : string :=
  match guess_type name with
  | Some m => m
  | None => "application/octet-stream"
  end.

(** [send_file(path)]: the mimetype is guessed from the file's name, the
    body is the file's content, the status is 200. *)
Definition send_file (guess_type : string -> option string)
    (path : string) : IO response :=
  let mimetype := mimetype_of guess_type (posixpath.basename path) in
  content <- read_bytes path ;;
  ret (mkResponse 200 mimetype (FileBytes content)).

(** [send_from_directory(directory, path, _root_path=root_path)], as
    Flask calls it. *)
Definition send_from_directory (guess_type : string -> option string)
    (root_path directory path : string) : IO response :=
  match safe_join directory path with
  | None => raise NotFound
  | Some path_str =>
      let path_str := posixpath.join root_path path_str in
      is_file <- os_path.isfile path_str ;;
      if negb is_file then raise NotFound
      else send_file guess_type path_str
  end.

(** *** The URL map of the application

    Three rules: ["/"] (index), ["/health"] (health) and
    ["/<path:filename>"] (static).  The matcher tries static parts before
    converters; the [path] converter is the regular expression
    [[^/].*?] matched up to the end of the string, and [.] does not match
    a line feed. *)
Inductive endpoint : Type :=
| ep_index
| ep_health
| ep_static (filename : string).

Definition LF : ascii := "010"%char.

Fixpoint has_LF (s : string) : bool :=
  match s with
  | EmptyString => false
  | String c s' => Ascii.eqb c LF || has_LF s'
  end.

Definition path_converter_match (target : string) : bool :=
  match target with
  | EmptyString => false
  | String c rest => negb (Ascii.eqb c sep) && negb (has_LF rest)
  end.

(** [MapAdapter.match(path_info, "GET")]: the path matched is
    ["/" + path_info.lstrip("/")], or [""] for an empty [path_info],
    which only matches with a slash added and is redirected. *)
Definition url_match (path_info : string) : result endpoint :=
  if path_info =? "" then Raise (RequestRedirect "/")
  else
    let rest := lstrip_sep path_info in
    if rest =? "" then Ok ep_index
    else if rest =? "health" then Ok ep_health
    else if path_converter_match rest then Ok (ep_static rest)
    else Raise NotFound.

End werkzeug.

(** ** The application: [backend/app.py] *)

Section App.

(** The directory of [app.py] ([Flask.root_path], an absolute path) and
    [mimetypes.guess_type] (the first component of its result), which
    depends on the tables of the machine. *)
Variable root_path : string.
Variable guess_type : string -> option string.

(** [app = Flask(__name__, static_folder="build", static_url_path="/")];
    [app.static_folder] is [os.path.join(root_path, "build")]. *)
Definition static_folder : string := posixpath.join root_path "build".

Definition send_from_directory (directory path : string) : IO response :=
  werkzeug.send_from_directory guess_type root_path directory path.

(** [Flask.send_static_file], the view of the static rule. *)
Definition send_static_file (filename : string) : IO view_rv :=
  r <- send_from_directory static_folder filename ;; ret (RvResponse r).

Definition index : IO view_rv :=
  r <- send_from_directory static_folder "index.html" ;; ret (RvResponse r).

Definition health : IO view_rv :=
  ret (RvResponse (flask.jsonify (JObj [("status", JStr "ok")]))).

Definition spa_fallback (e : exn) : IO view_rv :=
  let index_path := posixpath.join static_folder "index.html" in
  found <- os_path.exists_ index_path ;;
  if found then
    r <- send_from_directory static_folder "index.html" ;; ret (RvResponse r)
  else ret (RvDictStatus (JObj [("error", JStr "not found")]) 404).

(** [Flask.dispatch_request]: a routing exception is raised here, else
    the view of the matched rule is called. *)
Definition dispatch_request (path_info : string) : IO view_rv :=
  ep <- lift (werkzeug.url_match path_info) ;;
  match ep with
  | werkzeug.ep_index => index
  | werkzeug.ep_health => health
  | werkzeug.ep_static filename => send_static_file filename
  end.

(** [Flask.handle_user_exception]: a routing redirect is its own
    response, a 404 goes to the registered handler, anything else is
    raised again. *)
Definition handle_user_exception (e : exn) : IO view_rv :=
  match e with
  | RequestRedirect p => ret (RvResponse (mkResponse 308 "text/html" (RedirectPage p)))
  | NotFound => spa_fallback e
  | _ => raise e
  end.

Definition full_dispatch_request (path_info : string) : IO response :=
  rv <- try_except (dispatch_request path_info) handle_user_exception ;;
  ret (flask.make_response rv).

(** [Flask.wsgi_app]: an exception that is still raised, also one raised
    by an error handler, becomes a 500 response. *)
Definition wsgi_app (path_info : string) (fs : filesystem)
    : response * filesystem :=
  match full_dispatch_request path_info fs with
  | (Ok r, fs') => (r, fs')
  | (Raise _, fs') => (mkResponse 500 "text/html" ErrorPage, fs')
  end.

(** The response to [GET path_info]. *)
Definition get (fs : filesystem) (path_info : string) : response :=
  fst (wsgi_app path_info fs).

End App.

(** ** Python's [int] and the start-up block *)

Module python.

(** A value handed to [int]: [os.environ.get] gives a [str] or the
    default it was called with. *)
Inductive value : Type :=
| VStr (s : string)
| VInt (z : Z).

(** The white space [int] skips around a literal, below U+0100: the
    ASCII characters of [Py_ISSPACE] (tab to carriage return, and the
    space), and U+0085 and U+00A0, which [int] turns into a space before
    it reads.  The separators U+001C..U+001F are not among them. *)
Definition is_space (c : ascii) : bool :=
  let n := nat_of_ascii c in
  ((9 <=? n) && (n <=? 13) || (n =? 32) || (n =? 133) || (n =? 160))%nat.

Definition digit_of (c : ascii) : option Z :=
  let n := nat_of_ascii c in
  if ((48 <=? n) && (n <=? 57))%nat then Some (Z.of_nat n - 48)%Z else None.

Fixpoint lstrip (s : string) : string :=
  match s with
  | String c s' => if is_space c then lstrip s' else s
  | EmptyString => EmptyString
  end.

Fixpoint rstrip (s : string) : string :=
  match s with
  | EmptyString => EmptyString
  | String c s' =>
      match rstrip s' with
      | EmptyString => if is_space c then EmptyString else String c EmptyString
      | r => String c r
      end
  end.

(** The digits of a literal, where one underscore may stand between two
    digits: the value read and the number of digits, or nothing. *)
Fixpoint digits (s : string) (acc : Z) (after_digit : bool) (count : nat)
    : option (Z * nat) :=
  match s with
  | EmptyString => if after_digit then Some (acc, count) else None
  | String c s' =>
      match digit_of c with
      | Some d => digits s' (10 * acc + d)%Z true (S count)
      | None =>
          if Ascii.eqb c "_" && after_digit then digits s' acc false count
          else None
      end
  end.

(** [sys.get_int_max_str_digits()], the default. *)
Definition int_max_str_digits : nat := 4300.

(** An optional sign in front: whether it is a minus, and the rest. *)
Definition split_sign (s : string) : bool * string :=
  match s with
  | String "-" s' => (true, s')
  | String "+" s' => (false, s')
  | _ => (false, s)
  end.

(** [int(s)] for a [str], base 10. *)
Definition int_of_str (s : string) : option Z :=
  let s := rstrip (lstrip s) in
  let '(negative, s) := split_sign s in
  match digits s 0 false 0 with
  | Some (v, n) =>
      if (int_max_str_digits <? n)%nat then None
      else Some (if negative then (- v)%Z else v)
  | None => None
  end.

Definition int (v : value) : result Z :=
  match v with
  | VInt z => Ok z
  | VStr s => match int_of_str s with
              | Some z => Ok z
              | None => Raise ValueError
              end
  end.

End python.

(** The environment of the process, and [os.environ.get(key, default)]. *)
Definition environment : Type := string -> option string.

Definition environ_get (environ : environment) (key : string)
    (default : python.value) : python.value :=
  match environ key with
  | Some s => python.VStr s
  | None => default
  end.

(** What [app.run] was called with; the process keeps the servers it has
    started, in the order of their start. *)
Record server : Type := mkServer {
  host : string;
  port : Z;
  debug : bool
}.

Definition process : Type := list server.

Definition app_run (host : string) (port : Z) (debug : bool) : M process unit :=
  fun servers => (Ok tt, (servers ++ [mkServer host port debug])%list).

(** The block under [if __name__ == "__main__":]. *)
Definition main (environ : environment) : M process unit :=
  port <- lift (python.int (environ_get environ "PORT" (python.VInt 5001))) ;;
  app_run "0.0.0.0" port true.

(** ** Notions of the specification *)

Section Notions.

Variable root_path : string.

(** [<asset_root>/index.html], as [spa_fallback] builds it. *)
Definition index_path : string :=
  posixpath.join (static_folder root_path) "index.html".

(** The file a request path resolves to under the asset root: the path
    without its leading slashes is joined to the asset root the way the
    static view joins it, and a regular file is found there. *)
Definition resolve (fs : filesystem) (path_info : string)
    : option (list Byte.byte) :=
  match werkzeug.safe_join (static_folder root_path)
                           (PyStr.lstrip_sep path_info) with
  | Some p => match fs p with
              | Some (File content) => Some content
              | _ => None
              end
  | None => None
  end.

(** A relative path that stays below the directory it is joined to: it
    does not start at the root and none of its components is [..]. *)
Definition contained (q : string) : bool :=
  negb (PyStr.startswith q "/")
  && forallb (fun comp => negb (comp =? "..")) (PyStr.split q).

(** Two file systems with the same content under the asset root. *)
Definition agree_under_root (fs1 fs2 : filesystem) : Prop :=
  forall q, contained q = true ->
    fs1 (posixpath.join (static_folder root_path) q)
    = fs2 (posixpath.join (static_folder root_path) q).

End Notions.

(** A decimal numeral from its digits, and its value. *)
Definition digit_char (d : nat) : ascii := ascii_of_nat (48 + d).

Definition decimal_string (ds : list nat) : string :=
  string_of_list_ascii (map digit_char ds).

Definition decimal_value (ds : list nat) : Z :=
  fold_left (fun acc d => (10 * acc + Z.of_nat d)%Z) ds 0%Z.

(** The characters an integer literal is written with: white space, the
    digits, the underscore and the signs. *)
Definition literal_char (c : ascii) : bool :=
  python.is_space c
  || match python.digit_of c with Some _ => true | None => false end
  || Ascii.eqb c "_" || Ascii.eqb c "+" || Ascii.eqb c "-".

(** A string with a character no integer literal is written with. *)
Fixpoint has_foreign_char (s : string) : bool :=
  match s with
  | EmptyString => false
  | String c s' => negb (literal_char c) || has_foreign_char s'
  end.

(** A computation that leaves the file system as it found it. *)
Definition read_only {A} (c : IO A) : Prop :=
  forall fs, snd (c fs) = fs.

(** A path component without a separator. *)
Definition no_sep (comp : string) : Prop := PyStr.has_sep comp = false.

(** In the list [normpath] builds for a relative path, the components
    [..] stand in front: the list starts with one or holds none. *)
Definition dotdots_first (l : list string) : Prop :=
  hd_error l = Some ".." \/ ~ In ".." l.

Definition status_ok_json : json := JObj [("status", JStr "ok")].
Definition error_not_found_json : json := JObj [("error", JStr "not found")].

(** The responses the application can give, by name. *)
Definition health_response : response :=
  mkResponse 200 "application/json" (JsonBody status_ok_json).
Definition not_found_response : response :=
  mkResponse 404 "application/json" (JsonBody error_not_found_json).
Definition server_error_response : response :=
  mkResponse 500 "text/html" ErrorPage.
Definition file_response (guess_type : string -> option string)
    (name : string) (content : list Byte.byte) : response :=
  mkResponse 200 (werkzeug.mimetype_of guess_type name) (FileBytes content).

(** What the 404 handler answers, by what is found at [index.html]: the
    file, the JSON error when there is nothing, and a server error when
    there is something that is not a regular file (the handler then raises
    itself). *)
Definition fallback_response (guess_type : string -> option string)
    (at_index : option node) : response :=
  match at_index with
  | Some (File content) => file_response guess_type "index.html" content
  | Some Dir => server_error_response
  | None => not_found_response
  end.

(** ** A deployment to evaluate the application on *)

Module Sample.

Definition root : string := "/srv/cuponera/backend".

Definition guess_type (name : string) : option string :=
  if name =? "index.html" then Some "text/html"
  else if name =? "app.js" then Some "text/javascript"
  else None.

Definition index_html : list Byte.byte :=
  list_byte_of_string "<!doctype html><div id=root></div>".
Definition app_js : list Byte.byte :=
  list_byte_of_string "console.log(1)".
Definition health_file : list Byte.byte :=
  list_byte_of_string "a file named health".
Definition passwd : list Byte.byte :=
  list_byte_of_string "root:x:0:0:root:/root:/bin/sh".

(** A build without [index.html]. *)
Definition fs_no_index : filesystem := fun p =>
  if p =? "/srv/cuponera/backend/build" then Some Dir
  else if p =? "/srv/cuponera/backend/build/assets" then Some Dir
  else if p =? "/srv/cuponera/backend/build/assets/app.js" then Some (File app_js)
  else if p =? "/srv/cuponera/backend/build/health" then Some (File health_file)
  else if p =? "/etc/passwd" then Some (File passwd)
  else None.

(** A complete build. *)
Definition fs : filesystem := fun p =>
  if p =? "/srv/cuponera/backend/build/index.html" then Some (File index_html)
  else fs_no_index p.

(** The same build on a machine with another [/etc/passwd]. *)
Definition fs_other : filesystem := fun p =>
  if p =? "/etc/passwd" then Some (File app_js) else fs p.

(** No asset root at all. *)
Definition fs_empty : filesystem := fun _ => None.

Definition environ_port (s : string) : environment := fun key =>
  if key =? "PORT" then Some s else None.

End Sample.

(** A build where [index.html] is a directory. *)
Module Broken.

Definition fs : filesystem := fun p =>
  if p =? "/srv/cuponera/backend/build/index.html" then Some Dir
  else Sample.fs_no_index p.

End Broken.

(** * Properties *)

(** ** Strings and paths *)

Section StringFacts.
Import PyStr.

Lemma startswith_sep_cons c s :
  startswith (String c s) "/" = Ascii.eqb c sep.
Proof.
  unfold startswith, sep.
  change (String.prefix "/" (String c s))
    with (if ascii_dec "/" c then String.prefix "" s else false).
  destruct (ascii_dec "/" c) as [<- | Hne].
  - now destruct s.
  - symmetry. apply Ascii.eqb_neq. congruence.
Qed.

Lemma startswith_sep_app a b :
  startswith a "/" = true -> startswith (a ++ b) "/" = true.
Proof.
  destruct a as [|c a]; [discriminate|].
  change (String c a ++ b) with (String c (a ++ b)).
  now rewrite !startswith_sep_cons.
Qed.

Lemma endswith_sep_app a b :
  b <> "" -> endswith_sep (a ++ b) = endswith_sep b.
Proof.
  intros Hb. induction a as [|c a IH]; [reflexivity|].
  simpl. destruct (a ++ b) eqn:E; [|exact IH].
  destruct a; simpl in E; congruence.
Qed.

Lemma append_nonempty_r a b : b <> "" -> (a ++ b =? "") = false.
Proof.
  intros Hb. apply String.eqb_neq. destruct a; simpl; congruence.
Qed.

Lemma split_nonempty s : split s <> [].
Proof.
  destruct s as [|c s]; simpl; [discriminate|].
  destruct (Ascii.eqb c sep); [discriminate|].
  destruct (split s); discriminate.
Qed.

(** The components of a split hold no separator. *)
Lemma split_no_sep s : Forall (fun comp => has_sep comp = false) (split s).
Proof.
  induction s as [|c s IH]; simpl.
  - now constructor.
  - destruct (Ascii.eqb c sep) eqn:Ec.
    + now constructor.
    + destruct (split s) as [|h t].
      * constructor; [simpl; now rewrite Ec | constructor].
      * inversion IH; subst. constructor; [simpl; now rewrite Ec | assumption].
Qed.

Lemma split_without_sep s : has_sep s = false -> split s = [s].
Proof.
  induction s as [|c s IH]; simpl; [reflexivity|].
  intros H. apply orb_false_iff in H as [Hc Hs].
  rewrite Hc, (IH Hs). reflexivity.
Qed.

Lemma split_app_sep a b :
  has_sep a = false -> split (a ++ String sep b) = a :: split b.
Proof.
  induction a as [|c a IH]; simpl.
  - intros _. reflexivity.
  - intros H. apply orb_false_iff in H as [Hc Ha].
    rewrite Hc, (IH Ha). reflexivity.
Qed.

(** [s.split("/")] undoes ["/".join]. *)
Lemma split_join l :
  l <> [] -> Forall (fun comp => has_sep comp = false) l ->
  split (join l) = l.
Proof.
  induction l as [|x l IH]; [congruence|].
  intros _ H. inversion H as [|? ? Hx Hl]; subst.
  destruct l as [|y l].
  - simpl. now apply split_without_sep.
  - change (join (x :: y :: l)) with (x ++ String sep (join (y :: l))).
    rewrite split_app_sep by assumption.
    f_equal. apply IH; [discriminate | assumption].
Qed.

(** After a separator, the split ends like the split of what follows. *)
Lemma split_app_sep_tail a b :
  exists l, split (a ++ String sep b) = (l ++ split b)%list /\ l <> [].
Proof.
  induction a as [|c a [l [E Hl]]]; simpl.
  - exists [""]. split; [reflexivity | discriminate].
  - destruct (Ascii.eqb c sep).
    + exists ("" :: l). rewrite E. split; [reflexivity | discriminate].
    + rewrite E. destruct l as [|h t]; [congruence|].
      exists (String c h :: t). split; [reflexivity | discriminate].
Qed.

Lemma last_app_nonempty {A} (l1 l2 : list A) d :
  l2 <> [] -> last (l1 ++ l2)%list d = last l2 d.
Proof.
  intros H. induction l1 as [|x l1 IH]; [reflexivity|].
  simpl. destruct (l1 ++ l2)%list eqn:E; [|exact IH].
  destruct l1; simpl in E; congruence.
Qed.

Lemma basename_app_sep a b :
  posixpath.basename (a ++ String sep b) = posixpath.basename b.
Proof.
  unfold posixpath.basename.
  destruct (split_app_sep_tail a b) as [l [-> _]].
  apply last_app_nonempty, split_nonempty.
Qed.

End StringFacts.

(** ** [normpath] and [safe_join] keep a path below its directory *)

Section Containment.
Import PyStr.

Lemma last_in {A} (l : list A) d : l <> [] -> In (last l d) l.
Proof.
  induction l as [|x l IH]; [congruence|]. intros _.
  destruct l as [|y l]; [now left|].
  right. apply IH. discriminate.
Qed.

Lemma in_removelast {A} (x : A) l : In x (removelast l) -> In x l.
Proof.
  induction l as [|y l IH]; [easy|].
  destruct l as [|z l]; [easy|].
  intros [H | H]; [now left | right; now apply IH].
Qed.

Lemma Forall_removelast {A} (P : A -> Prop) l :
  Forall P l -> Forall P (removelast l).
Proof.
  intros H. apply Forall_forall. intros x Hx.
  rewrite Forall_forall in H. apply H, in_removelast, Hx.
Qed.

Lemma dotdots_first_removelast l :
  dotdots_first l -> dotdots_first (removelast l).
Proof.
  intros [H | H].
  - destruct l as [|x l]; [discriminate|]. injection H as ->.
    destruct l as [|y l].
    + right. intros [].
    + left. reflexivity.
  - right. intros Hin. apply H, in_removelast, Hin.
Qed.

Lemma dotdots_first_snoc l comp :
  dotdots_first l -> (comp = ".." -> l = [] \/ last l "" = "..") ->
  dotdots_first (l ++ [comp]).
Proof.
  intros Hl Hc.
  destruct l as [|x l]; [destruct (string_dec comp "..") as [-> | Hne]|].
  - left. reflexivity.
  - right. intros [H | []]. congruence.
  - destruct Hl as [H | H]; [left; exact H|].
    right. intros Hin. apply in_app_or in Hin as [Hin | [-> | []]].
    + exact (H Hin).
    + destruct (Hc eq_refl) as [E | E]; [discriminate|].
      apply H. rewrite <- E. apply last_in. discriminate.
Qed.

Lemma norm_step_dotdots_first acc comp :
  dotdots_first acc -> dotdots_first (posixpath.norm_step 0 acc comp).
Proof.
  intros H. unfold posixpath.norm_step.
  destruct ((comp =? "") || (comp =? ".")); [exact H|].
  destruct (comp =? "..") eqn:Edd; simpl.
  - apply String.eqb_eq in Edd. subst comp.
    destruct acc as [|x acc]; simpl posixpath.is_nil; cbv iota beta.
    + simpl. left. reflexivity.
    + change (negb false && (last (x :: acc) "" =? ".."))
        with (last (x :: acc) "" =? "..").
      destruct (last (x :: acc) "" =? "..") eqn:El.
      * apply dotdots_first_snoc; [exact H|].
        intros _. right. now apply String.eqb_eq.
      * apply dotdots_first_removelast, H.
  - apply dotdots_first_snoc; [exact H|].
    intros ->. discriminate.
Qed.

Lemma norm_step_no_sep n acc comp :
  Forall no_sep acc -> no_sep comp ->
  Forall no_sep (posixpath.norm_step n acc comp).
Proof.
  intros Hacc Hc. unfold posixpath.norm_step.
  destruct ((comp =? "") || (comp =? ".")); [exact Hacc|].
  destruct (_ || _ || _).
  - apply Forall_app. split; [exact Hacc | now constructor].
  - destruct (negb _); [now apply Forall_removelast | exact Hacc].
Qed.

Lemma normalise_invariant comps acc :
  Forall no_sep comps -> Forall no_sep acc -> dotdots_first acc ->
  let l := fold_left (posixpath.norm_step 0) comps acc in
  Forall no_sep l /\ dotdots_first l.
Proof.
  revert acc. induction comps as [|c comps IH]; intros acc Hc Hacc Hd.
  - now split.
  - inversion Hc; subst. simpl. apply IH; try assumption.
    + now apply norm_step_no_sep.
    + now apply norm_step_dotdots_first.
Qed.

Lemma startswith_dotdot_sep s :
  startswith (String "." (String "." (String sep s))) "../" = true.
Proof. unfold startswith. destruct s; reflexivity. Qed.

(** A normalised path that passes the checks of [safe_join] has no
    component [..] left. *)
Lemma normpath_contained filename :
  let q := posixpath.normpath filename in
  startswith q "/" = false -> (q =? "..") = false ->
  startswith q "../" = false ->
  contained q = true.
Proof.
  unfold posixpath.normpath.
  destruct (filename =? ""); [reflexivity|].
  unfold posixpath.initial_slashes.
  destruct (startswith filename "/").
  - destruct (_ && _); cbn [seps append String.eqb];
      rewrite startswith_sep_cons; discriminate.
  - simpl seps.
    change ("" ++ ?x) with x.
    remember (fold_left (posixpath.norm_step 0) (split filename) [])
      as comps eqn:Ecomps.
    assert (Hinv : Forall no_sep comps /\ dotdots_first comps).
    { subst comps. apply normalise_invariant.
      - apply split_no_sep.
      - constructor.
      - right. intros []. }
    destruct Hinv as [Hsep Hdd].
    destruct (join comps =? "") eqn:Eempty; [reflexivity|].
    intros Habs Hne Hpre.
    destruct Hdd as [Hhd | Hnone].
    + destruct comps as [|x t]; [discriminate|]. injection Hhd as ->.
      destruct t as [|y t].
      * discriminate.
      * change (join (".." :: y :: t))
          with (String "." (String "." (String sep (join (y :: t))))) in Hpre.
        now rewrite startswith_dotdot_sep in Hpre.
    + unfold contained. rewrite Habs. simpl negb.
      rewrite split_join.
      * apply forallb_forall. intros c Hc.
        destruct (c =? "..") eqn:Ec; [|reflexivity].
        apply String.eqb_eq in Ec. subst c. contradiction.
      * intros ->. discriminate.
      * exact Hsep.
Qed.

(** What [safe_join] returns is the directory joined with a contained
    relative path. *)
Lemma safe_join_contained directory filename p :
  werkzeug.safe_join directory filename = Some p ->
  exists q, contained q = true
    /\ p = posixpath.join (if directory =? "" then "." else directory) q.
Proof.
  unfold werkzeug.safe_join, posixpath.isabs.
  destruct (filename =? "") eqn:Ef; simpl negb; cbv iota.
  - apply String.eqb_eq in Ef. subst filename. simpl.
    intros [= <-]. exists "". split; reflexivity.
  - set (q := posixpath.normpath filename).
    destruct (startswith q "/") eqn:E1; [discriminate|].
    destruct (q =? "..") eqn:E2; [discriminate|].
    destruct (startswith q "../") eqn:E3; [discriminate|].
    simpl. intros [= <-]. exists q. split; [|reflexivity].
    now apply normpath_contained.
Qed.

End Containment.


(** ** The static folder and [send_from_directory] *)

Section StaticFolder.
Import PyStr.

Variable root_path : string.
Variable guess_type : string -> option string.

Let sf := static_folder root_path.

Lemma static_folder_cases :
  sf = root_path ++ "build" \/ sf = root_path ++ "/build".
Proof.
  unfold sf, static_folder, posixpath.join.
  change (startswith "build" "/") with false. cbv iota.
  destruct (_ || _); [left | right]; reflexivity.
Qed.

Lemma static_folder_nonempty : (sf =? "") = false.
Proof.
  destruct static_folder_cases as [-> | ->];
    apply append_nonempty_r; discriminate.
Qed.

Lemma static_folder_no_trailing_sep : endswith_sep sf = false.
Proof.
  destruct static_folder_cases as [-> | ->];
    rewrite endswith_sep_app by discriminate; reflexivity.
Qed.

Lemma static_folder_abs :
  posixpath.isabs root_path = true -> startswith sf "/" = true.
Proof.
  intros H. destruct static_folder_cases as [-> | ->];
    now apply startswith_sep_app.
Qed.

Lemma join_static_folder q :
  startswith q "/" = false -> posixpath.join sf q = sf ++ String sep q.
Proof.
  intros H. unfold posixpath.join.
  now rewrite H, static_folder_nonempty, static_folder_no_trailing_sep.
Qed.

Lemma join_root_static_folder q :
  posixpath.isabs root_path = true -> startswith q "/" = false ->
  posixpath.join root_path (posixpath.join sf q) = posixpath.join sf q.
Proof.
  intros Habs H. rewrite join_static_folder by assumption.
  unfold posixpath.join at 1.
  now rewrite (startswith_sep_app _ _ (static_folder_abs Habs)).
Qed.

Lemma contained_relative q : contained q = true -> startswith q "/" = false.
Proof.
  unfold contained. intros H. apply andb_true_iff in H as [H _].
  now apply negb_true_iff.
Qed.

(** [safe_join] on the static folder: the folder joined with a contained
    path. *)
Lemma safe_join_static_folder filename p :
  werkzeug.safe_join sf filename = Some p ->
  exists q, contained q = true /\ p = posixpath.join sf q.
Proof.
  intros H. apply safe_join_contained in H.
  now rewrite static_folder_nonempty in H.
Qed.

Lemma safe_join_index :
  werkzeug.safe_join sf "index.html" = Some (index_path root_path).
Proof.
  unfold werkzeug.safe_join. rewrite static_folder_nonempty. reflexivity.
Qed.

Lemma basename_index_path :
  posixpath.basename (index_path root_path) = "index.html".
Proof.
  unfold index_path. fold sf. rewrite join_static_folder by reflexivity.
  now rewrite basename_app_sep.
Qed.

(** [send_from_directory] on the static folder, in one equation: the file
    [safe_join] names is served when it is a regular file, a 404 is raised
    otherwise. *)
Lemma send_from_directory_static filename fs :
  posixpath.isabs root_path = true ->
  send_from_directory root_path guess_type sf filename fs =
  match werkzeug.safe_join sf filename with
  | Some p =>
      match fs p with
      | Some (File content) =>
          (Ok (mkResponse 200
                 (werkzeug.mimetype_of guess_type (posixpath.basename p))
                 (FileBytes content)), fs)
      | _ => (Raise NotFound, fs)
      end
  | None => (Raise NotFound, fs)
  end.
Proof.
  intros Habs.
  unfold send_from_directory, werkzeug.send_from_directory.
  destruct (werkzeug.safe_join sf filename) as [p|] eqn:E; [|reflexivity].
  destruct (safe_join_static_folder _ _ E) as [q [Hq ->]].
  rewrite join_root_static_folder by (auto using contained_relative).
  unfold werkzeug.send_file, os_path.isfile, read_bytes, raise, ret, bind.
  destruct (fs (posixpath.join sf q)) as [[content|]|] eqn:Efs;
    cbv beta iota delta [negb]; rewrite ?Efs; reflexivity.
Qed.

End StaticFolder.

(** ** The views and the dispatch, in equations *)

Section Dispatch.

Variable root_path : string.
Variable guess_type : string -> option string.
Hypothesis root_abs : posixpath.isabs root_path = true.

Let sf := static_folder root_path.
Let idx := index_path root_path.

Lemma index_eq fs :
  index root_path guess_type fs =
  match fs idx with
  | Some (File content) =>
      (Ok (RvResponse (file_response guess_type "index.html" content)), fs)
  | _ => (Raise NotFound, fs)
  end.
Proof.
  unfold index, bind.
  rewrite send_from_directory_static by exact root_abs.
  rewrite safe_join_index, basename_index_path. fold idx.
  destruct (fs idx) as [[content|]|]; reflexivity.
Qed.

Lemma send_static_file_eq filename fs :
  send_static_file root_path guess_type filename fs =
  match werkzeug.safe_join sf filename with
  | Some p =>
      match fs p with
      | Some (File content) =>
          (Ok (RvResponse (file_response guess_type (posixpath.basename p)
                             content)), fs)
      | _ => (Raise NotFound, fs)
      end
  | None => (Raise NotFound, fs)
  end.
Proof.
  unfold send_static_file, bind.
  rewrite send_from_directory_static by exact root_abs. fold sf.
  destruct (werkzeug.safe_join sf filename) as [p|]; [|reflexivity].
  destruct (fs p) as [[content|]|]; reflexivity.
Qed.

Lemma spa_fallback_eq e fs :
  spa_fallback root_path guess_type e fs =
  match fs idx with
  | Some (File content) =>
      (Ok (RvResponse (file_response guess_type "index.html" content)), fs)
  | Some Dir => (Raise NotFound, fs)
  | None => (Ok (RvDictStatus error_not_found_json 404), fs)
  end.
Proof.
  unfold spa_fallback. fold (index_path root_path). fold idx.
  unfold bind at 1. unfold os_path.exists_.
  destruct (fs idx) as [[content|]|] eqn:E; [| |reflexivity];
    (unfold bind; rewrite send_from_directory_static by exact root_abs;
     rewrite safe_join_index, basename_index_path; fold idx; now rewrite E).
Qed.

(** A request whose dispatch raises [NotFound] gets the answer of the 404
    handler. *)
Lemma wsgi_app_not_found path_info fs :
  dispatch_request root_path guess_type path_info fs = (Raise NotFound, fs) ->
  wsgi_app root_path guess_type path_info fs
  = (fallback_response guess_type (fs idx), fs).
Proof.
  intros H.
  unfold wsgi_app, full_dispatch_request, bind, try_except.
  rewrite H. unfold handle_user_exception. rewrite spa_fallback_eq.
  destruct (fs idx) as [[content|]|]; reflexivity.
Qed.

(** A request whose dispatch returns a response object gets it. *)
Lemma wsgi_app_response path_info fs r :
  dispatch_request root_path guess_type path_info fs = (Ok (RvResponse r), fs) ->
  wsgi_app root_path guess_type path_info fs = (r, fs).
Proof.
  intros H.
  unfold wsgi_app, full_dispatch_request, bind, try_except.
  now rewrite H.
Qed.

Lemma dispatch_request_eq path_info fs :
  dispatch_request root_path guess_type path_info fs =
  match werkzeug.url_match path_info with
  | Ok werkzeug.ep_index => index root_path guess_type fs
  | Ok werkzeug.ep_health => health fs
  | Ok (werkzeug.ep_static filename) =>
      send_static_file root_path guess_type filename fs
  | Raise e => (Raise e, fs)
  end.
Proof.
  unfold dispatch_request, bind, lift.
  destruct (werkzeug.url_match path_info) as [[| |filename]|e]; reflexivity.
Qed.

End Dispatch.

(** ** The URL map *)

Section Routing.
Import PyStr.

(** Which paths go to the static rule: all but the empty path, the root,
    [/health] and the paths with a line feed after their first character. *)
Lemma url_match_static_iff path_info filename :
  werkzeug.url_match path_info = Ok (werkzeug.ep_static filename) <->
  (path_info =? "") = false
  /\ filename = lstrip_sep path_info
  /\ (filename =? "") = false
  /\ (filename =? "health") = false
  /\ werkzeug.path_converter_match filename = true.
Proof.
  unfold werkzeug.url_match. split.
  - destruct (path_info =? ""); [discriminate|].
    destruct (lstrip_sep path_info =? "") eqn:E1; [discriminate|].
    destruct (lstrip_sep path_info =? "health") eqn:E2; [discriminate|].
    destruct (werkzeug.path_converter_match (lstrip_sep path_info)) eqn:E3;
      [|discriminate].
    intros [= <-]. auto.
  - intros (-> & -> & -> & -> & ->). reflexivity.
Qed.

(** Every other non-empty path goes to the index or the static rule, or
    matches no rule. *)
Lemma url_match_cases path_info :
  (path_info =? "") = false ->
  (lstrip_sep path_info =? "health") = false ->
  werkzeug.url_match path_info = Ok werkzeug.ep_index
  \/ werkzeug.url_match path_info
     = Ok (werkzeug.ep_static (lstrip_sep path_info))
  \/ werkzeug.url_match path_info = Raise NotFound.
Proof.
  intros H1 H2. unfold werkzeug.url_match. rewrite H1, H2.
  destruct (lstrip_sep path_info =? ""); [now left|].
  destruct (werkzeug.path_converter_match _); auto.
Qed.

(** The matcher raises nothing but [NotFound] and the redirect of the
    empty path. *)
Lemma url_match_raises path_info e :
  werkzeug.url_match path_info = Raise e ->
  e = NotFound \/ (path_info = "" /\ e = RequestRedirect "/").
Proof.
  unfold werkzeug.url_match.
  destruct (path_info =? "") eqn:E.
  - apply String.eqb_eq in E. intros [= <-]. now right.
  - destruct (lstrip_sep path_info =? ""); [discriminate|].
    destruct (lstrip_sep path_info =? "health"); [discriminate|].
    destruct (werkzeug.path_converter_match _); [discriminate|].
    intros [= <-]. now left.
Qed.

End Routing.

(** ** Handlers only read *)

Section ReadOnly.

Lemma read_only_ret {A} (a : A) : read_only (ret a).
Proof. intros fs. reflexivity. Qed.

Lemma read_only_raise {A} e : read_only (@raise filesystem A e).
Proof. intros fs. reflexivity. Qed.

Lemma read_only_lift {A} (r : result A) : read_only (lift r).
Proof. intros fs. reflexivity. Qed.

Lemma read_only_bind {A B} (c : IO A) (k : A -> IO B) :
  read_only c -> (forall a, read_only (k a)) -> read_only (bind c k).
Proof.
  intros Hc Hk fs. unfold bind. specialize (Hc fs).
  destruct (c fs) as [[a|e] fs']; simpl in *; subst fs'.
  - apply Hk.
  - reflexivity.
Qed.

Lemma read_only_try_except {A} (c : IO A) (h : exn -> IO A) :
  read_only c -> (forall e, read_only (h e)) -> read_only (try_except c h).
Proof.
  intros Hc Hh fs. unfold try_except. specialize (Hc fs).
  destruct (c fs) as [[a|e] fs']; simpl in *; subst fs'.
  - reflexivity.
  - apply Hh.
Qed.

Lemma read_only_isfile p : read_only (os_path.isfile p).
Proof. intros fs. reflexivity. Qed.

Lemma read_only_exists p : read_only (os_path.exists_ p).
Proof. intros fs. reflexivity. Qed.

Lemma read_only_read_bytes p : read_only (read_bytes p).
Proof. intros fs. reflexivity. Qed.

Create HintDb read_only.
#[local] Hint Resolve read_only_ret read_only_raise read_only_lift
  read_only_isfile read_only_exists read_only_read_bytes : read_only.

Ltac read_only_step :=
  first [ apply read_only_bind; [|intros ?]
        | apply read_only_try_except; [|intros ?]
        | solve [auto with read_only] ].

Variable root_path : string.
Variable guess_type : string -> option string.

Lemma read_only_send_from_directory directory path :
  read_only (send_from_directory root_path guess_type directory path).
Proof.
  unfold send_from_directory, werkzeug.send_from_directory.
  destruct (werkzeug.safe_join directory path); [|auto with read_only].
  read_only_step; [read_only_step|].
  destruct (negb a); [auto with read_only|].
  unfold werkzeug.send_file. repeat read_only_step.
Qed.

Lemma read_only_spa_fallback e :
  read_only (spa_fallback root_path guess_type e).
Proof.
  unfold spa_fallback. read_only_step; [read_only_step|].
  destruct a; [|auto with read_only].
  read_only_step; [apply read_only_send_from_directory | read_only_step].
Qed.

Lemma read_only_dispatch_request path_info :
  read_only (dispatch_request root_path guess_type path_info).
Proof.
  unfold dispatch_request. read_only_step; [read_only_step|].
  destruct a; unfold index, health, send_static_file;
    repeat first [apply read_only_send_from_directory | read_only_step].
Qed.

Lemma read_only_full_dispatch_request path_info :
  read_only (full_dispatch_request root_path guess_type path_info).
Proof.
  unfold full_dispatch_request. read_only_step; [|read_only_step].
  read_only_step; [apply read_only_dispatch_request|].
  unfold handle_user_exception.
  destruct e; auto using read_only_spa_fallback with read_only.
Qed.

(** Handling a request leaves the file system as it was. *)
Lemma wsgi_app_read_only path_info fs :
  snd (wsgi_app root_path guess_type path_info fs) = fs.
Proof.
  unfold wsgi_app.
  pose proof (read_only_full_dispatch_request path_info fs) as H.
  destruct (full_dispatch_request _ _ _ fs) as [[r|e] fs']; exact H.
Qed.

End ReadOnly.

(** ** The response to a request, in one equation *)

Section Requests.
Import PyStr.

Variable root_path : string.
Variable guess_type : string -> option string.
Hypothesis root_abs : posixpath.isabs root_path = true.

Let sf := static_folder root_path.
Let idx := index_path root_path.

Lemma get_eq fs path_info :
  get root_path guess_type fs path_info =
  match werkzeug.url_match path_info with
  | Ok werkzeug.ep_health => health_response
  | Ok werkzeug.ep_index => fallback_response guess_type (fs idx)
  | Ok (werkzeug.ep_static filename) =>
      match werkzeug.safe_join sf filename with
      | Some p =>
          match fs p with
          | Some (File content) =>
              file_response guess_type (posixpath.basename p) content
          | _ => fallback_response guess_type (fs idx)
          end
      | None => fallback_response guess_type (fs idx)
      end
  | Raise (RequestRedirect p) => mkResponse 308 "text/html" (RedirectPage p)
  | Raise _ => fallback_response guess_type (fs idx)
  end.
Proof.
  unfold get.
  destruct (werkzeug.url_match path_info) as [[| |filename]|e] eqn:E.
  - (* index *)
    destruct (fs idx) as [[content|]|] eqn:Ei.
    + erewrite wsgi_app_response; [reflexivity |].
      rewrite dispatch_request_eq, E, index_eq by exact root_abs.
      fold idx. now rewrite Ei.
    + rewrite wsgi_app_not_found; [fold idx; now rewrite Ei | exact root_abs |].
      rewrite dispatch_request_eq, E, index_eq by exact root_abs.
      fold idx. now rewrite Ei.
    + rewrite wsgi_app_not_found; [fold idx; now rewrite Ei | exact root_abs |].
      rewrite dispatch_request_eq, E, index_eq by exact root_abs.
      fold idx. now rewrite Ei.
  - (* health *)
    erewrite wsgi_app_response; [reflexivity |].
    now rewrite dispatch_request_eq, E.
  - (* static *)
    assert (Hd : dispatch_request root_path guess_type path_info fs
                 = send_static_file root_path guess_type filename fs)
      by now rewrite dispatch_request_eq, E.
    rewrite send_static_file_eq in Hd by exact root_abs. fold sf in Hd.
    destruct (werkzeug.safe_join sf filename) as [p|].
    + destruct (fs p) as [[content|]|].
      * erewrite wsgi_app_response; [reflexivity | exact Hd].
      * now rewrite wsgi_app_not_found.
      * now rewrite wsgi_app_not_found.
    + now rewrite wsgi_app_not_found.
  - (* no rule *)
    destruct (url_match_raises _ _ E) as [-> | [-> ->]].
    + rewrite wsgi_app_not_found; [reflexivity | exact root_abs |].
      now rewrite dispatch_request_eq, E.
    + reflexivity.
Qed.

(** A request that is not for [/health] and finds no file gets the answer
    of the 404 handler; the index view gives the same answer as the handler
    when [index.html] is a file. *)
Lemma get_unresolved fs path_info :
  (path_info =? "") = false ->
  (lstrip_sep path_info =? "health") = false ->
  resolve root_path fs path_info = None ->
  get root_path guess_type fs path_info
  = fallback_response guess_type (fs idx).
Proof.
  intros Hne Hnh Hres. rewrite get_eq.
  destruct (url_match_cases _ Hne Hnh) as [E | [E | E]]; rewrite E;
    try reflexivity.
  unfold resolve in Hres. fold sf in Hres.
  destruct (werkzeug.safe_join sf (lstrip_sep path_info)) as [p|];
    [|reflexivity].
  destruct (fs p) as [[content|]|]; [discriminate | reflexivity | reflexivity].
Qed.

End Requests.

(** ** Python's [int] on numerals *)

Section IntFacts.

Lemma digit_char_facts d :
  (d < 10)%nat ->
  python.digit_of (digit_char d) = Some (Z.of_nat d)
  /\ python.is_space (digit_char d) = false
  /\ (forall s, python.split_sign (String (digit_char d) s)
                = (false, String (digit_char d) s)).
Proof.
  intros H.
  do 10 (destruct d as [|d]; [repeat split|]).
  lia.
Qed.

Lemma decimal_string_cons d ds :
  decimal_string (d :: ds) = String (digit_char d) (decimal_string ds).
Proof. reflexivity. Qed.

Lemma lstrip_cons c s :
  python.lstrip (String c s)
  = if python.is_space c then python.lstrip s else String c s.
Proof. reflexivity. Qed.

Lemma rstrip_cons c s :
  python.rstrip (String c s)
  = match python.rstrip s with
    | EmptyString =>
        if python.is_space c then EmptyString else String c EmptyString
    | r => String c r
    end.
Proof. reflexivity. Qed.

Lemma digits_cons c s acc after_digit count :
  python.digits (String c s) acc after_digit count
  = match python.digit_of c with
    | Some d => python.digits s (10 * acc + d)%Z true (S count)
    | None =>
        if Ascii.eqb c "_" && after_digit
        then python.digits s acc false count
        else None
    end.
Proof. reflexivity. Qed.

Lemma lstrip_decimal ds :
  Forall (fun d => (d < 10)%nat) ds ->
  python.lstrip (decimal_string ds) = decimal_string ds.
Proof.
  intros H. destruct H as [|d ds Hd _]; [reflexivity|].
  rewrite decimal_string_cons, lstrip_cons.
  now rewrite (proj1 (proj2 (digit_char_facts d Hd))).
Qed.

Lemma rstrip_decimal ds :
  Forall (fun d => (d < 10)%nat) ds ->
  python.rstrip (decimal_string ds) = decimal_string ds.
Proof.
  intros H. induction H as [|d ds Hd _ IH]; [reflexivity|].
  rewrite decimal_string_cons, rstrip_cons, IH.
  destruct (decimal_string ds); [|reflexivity].
  now rewrite (proj1 (proj2 (digit_char_facts d Hd))).
Qed.

Lemma digits_decimal ds :
  Forall (fun d => (d < 10)%nat) ds ->
  forall acc after_digit count,
    ds <> [] \/ after_digit = true ->
    python.digits (decimal_string ds) acc after_digit count
    = Some (fold_left (fun a d => (10 * a + Z.of_nat d)%Z) ds acc,
            (count + length ds)%nat).
Proof.
  intros H. induction H as [|d ds Hd _ IH]; intros acc b n Hb.
  - destruct Hb as [Hb | ->]; [congruence|].
    cbn [length fold_left]. now rewrite Nat.add_0_r.
  - rewrite decimal_string_cons, digits_cons.
    rewrite (proj1 (digit_char_facts d Hd)).
    rewrite IH by now right.
    cbn [length fold_left]. now rewrite Nat.add_succ_r.
Qed.

(** [int] reads a numeral of at most 4300 digits as its value. *)
Lemma int_of_decimal_string ds :
  ds <> [] -> Forall (fun d => (d < 10)%nat) ds ->
  (length ds <= python.int_max_str_digits)%nat ->
  python.int_of_str (decimal_string ds) = Some (decimal_value ds).
Proof.
  intros Hne H Hlen. unfold python.int_of_str.
  rewrite lstrip_decimal, rstrip_decimal by assumption.
  pose proof (digits_decimal ds H 0%Z false 0%nat (or_introl Hne)) as Hd.
  destruct H as [|d ds Hd' Hds]; [congruence|].
  rewrite decimal_string_cons in *.
  rewrite (proj2 (proj2 (digit_char_facts d Hd'))).
  rewrite Hd. apply Nat.ltb_ge in Hlen.
  change (0 + length (d :: ds))%nat with (length (d :: ds)).
  rewrite Hlen. reflexivity.
Qed.

Lemma has_foreign_char_lstrip s :
  has_foreign_char (python.lstrip s) = has_foreign_char s.
Proof.
  induction s as [|c s IH]; [reflexivity|].
  simpl. destruct (python.is_space c) eqn:E; [|reflexivity].
  rewrite IH. unfold literal_char. now rewrite E.
Qed.

Lemma has_foreign_char_rstrip s :
  has_foreign_char (python.rstrip s) = has_foreign_char s.
Proof.
  induction s as [|c s IH]; [reflexivity|].
  simpl. destruct (python.rstrip s) as [|c' r].
  - rewrite <- IH. simpl.
    destruct (python.is_space c) eqn:E; simpl.
    + unfold literal_char. now rewrite E.
    + reflexivity.
  - now rewrite <- IH.
Qed.

Lemma has_foreign_char_split_sign s :
  has_foreign_char s = true ->
  has_foreign_char (snd (python.split_sign s)) = true.
Proof.
  destruct s as [|c s]; [discriminate|].
  destruct (Ascii.eqb c "-") eqn:E1.
  - apply Ascii.eqb_eq in E1. subst c. simpl. auto.
  - destruct (Ascii.eqb c "+") eqn:E2.
    + apply Ascii.eqb_eq in E2. subst c. simpl. auto.
    + intros H.
      replace (python.split_sign (String c s)) with (false, String c s);
        [exact H|].
      apply Ascii.eqb_neq in E1, E2.
      destruct c as [[] [] [] [] [] [] [] []]; try reflexivity; congruence.
Qed.

Lemma digits_foreign_char s :
  has_foreign_char s = true ->
  forall acc after_digit count,
    python.digits s acc after_digit count = None.
Proof.
  induction s as [|c s IH]; [discriminate|].
  intros H acc b n. simpl in *.
  unfold literal_char in H.
  destruct (python.digit_of c) as [d|].
  - apply IH. rewrite !orb_true_r in H. exact H.
  - destruct (Ascii.eqb c "_" && b) eqn:E; [|reflexivity].
    apply andb_true_iff in E as [E _]. rewrite E in H.
    apply IH. rewrite !orb_true_r in H. exact H.
Qed.

(** [int] reads no string with a character that no literal is written
    with. *)
Lemma int_of_str_foreign_char s :
  has_foreign_char s = true -> python.int_of_str s = None.
Proof.
  intros H. unfold python.int_of_str.
  rewrite <- has_foreign_char_lstrip, <- has_foreign_char_rstrip in H.
  apply has_foreign_char_split_sign in H.
  destruct (python.split_sign _) as [negative rest]. simpl in H.
  now rewrite digits_foreign_char.
Qed.

End IntFacts.

(** ** The library functions on examples *)

Example normpath_ex1 : posixpath.normpath "a/./b//../c/" = "a/c".
Proof. reflexivity. Qed.
Example normpath_ex2 : posixpath.normpath "../../etc/passwd" = "../../etc/passwd".
Proof. reflexivity. Qed.
Example normpath_ex3 : posixpath.normpath "a/../../b" = "../b".
Proof. reflexivity. Qed.
Example normpath_ex4 : posixpath.normpath "//a/.." = "//".
Proof. reflexivity. Qed.
Example normpath_ex5 : posixpath.normpath "a/.." = ".".
Proof. reflexivity. Qed.
Example int_ex1 : python.int_of_str "5001" = Some 5001%Z.
Proof. reflexivity. Qed.
Example int_ex2 : python.int_of_str "  +8_080 " = Some 8080%Z.
Proof. reflexivity. Qed.
Example int_ex3 : python.int_of_str "80.0" = None.
Proof. reflexivity. Qed.
Example int_ex4 : python.int_of_str "" = None.
Proof. reflexivity. Qed.
Example int_ex5 : python.int_of_str "8__0" = None.
Proof. reflexivity. Qed.
Example int_ex6 : python.int_of_str "-0007" = Some (-7)%Z.
Proof. reflexivity. Qed.
Example int_ex7 : python.int_of_str (String "028"%char "7") = None.
Proof. reflexivity. Qed.
Example int_ex8 : python.int_of_str (String "160"%char "7") = Some 7%Z.
Proof. reflexivity. Qed.

(** * The claims *)

(** ** The health probe *)

(** C4. [GET /health] answers the JSON document [{"status": "ok"}] with
    the content type [application/json] and the status 200 on every file
    system (asset root present, empty or absent) and for every root path
    and mimetype table, and it leaves the file system as it was. *)
Theorem health_always_ok :
  forall (root_path : string) (guess_type : string -> option string)
         (fs : filesystem),
    wsgi_app root_path guess_type "/health" fs
    = (mkResponse 200 "application/json"
         (JsonBody (JObj [("status", JStr "ok")])), fs).
Proof. intros. reflexivity. Qed.

(** ** The index *)

(** C5. [GET /] when [<asset_root>/index.html] is a file answers the
    content of that file with the content type [text/html] and the status
    200. *)
Theorem index_served :
  forall (root_path : string) (guess_type : string -> option string)
         (fs : filesystem) (content : list Byte.byte),
    posixpath.isabs root_path = true ->
    guess_type "index.html" = Some "text/html" ->
    fs (index_path root_path) = Some (File content) ->
    get root_path guess_type fs "/"
    = mkResponse 200 "text/html" (FileBytes content).
Proof.
  intros root_path guess_type fs content Habs Hguess Hfile.
  unfold get.
  rewrite (wsgi_app_response root_path guess_type "/" fs
             (file_response guess_type "index.html" content)).
  - unfold file_response, werkzeug.mimetype_of. now rewrite Hguess.
  - rewrite dispatch_request_eq.
    change (werkzeug.url_match "/") with (Ok werkzeug.ep_index).
    rewrite index_eq by exact Habs. now rewrite Hfile.
Qed.

Lemma index_served_witness :
  posixpath.isabs Sample.root = true
  /\ Sample.guess_type "index.html" = Some "text/html"
  /\ Sample.fs (index_path Sample.root) = Some (File Sample.index_html)
  /\ get Sample.root Sample.guess_type Sample.fs "/"
     = mkResponse 200 "text/html" (FileBytes Sample.index_html).
Proof.
  split; [reflexivity|]. split; [reflexivity|]. split; [reflexivity|].
  apply (index_served Sample.root Sample.guess_type Sample.fs
           Sample.index_html); reflexivity.
Defined.

(** C7. [GET /] when [<asset_root>/index.html] is absent answers with the
    status 404: the [NotFound] of the index view reaches the client as the
    JSON error of the 404 handler. *)
Theorem index_absent_404 :
  forall (root_path : string) (guess_type : string -> option string)
         (fs : filesystem),
    posixpath.isabs root_path = true ->
    fs (index_path root_path) = None ->
    status (get root_path guess_type fs "/") = 404%Z
    /\ get root_path guess_type fs "/" = not_found_response.
Proof.
  intros root_path guess_type fs Habs Hnone.
  assert (E : get root_path guess_type fs "/" = not_found_response).
  { unfold get. rewrite wsgi_app_not_found by
      (try exact Habs; rewrite dispatch_request_eq;
       change (werkzeug.url_match "/") with (Ok werkzeug.ep_index);
       rewrite index_eq by exact Habs; now rewrite Hnone).
    simpl. now rewrite Hnone. }
  rewrite E. split; reflexivity.
Qed.

Lemma index_absent_404_witness :
  posixpath.isabs Sample.root = true
  /\ Sample.fs_no_index (index_path Sample.root) = None
  /\ status (get Sample.root Sample.guess_type Sample.fs_no_index "/") = 404%Z.
Proof.
  split; [reflexivity|]. split; [reflexivity|].
  apply (index_absent_404 Sample.root Sample.guess_type Sample.fs_no_index);
    reflexivity.
Defined.

(** ** The fallback of the single-page application *)

(** C1, as the specification has it, fails: [GET /does-not-exist] on a
    complete build finds no file, [index.html] is there, the body is the
    index document, and the status is 200, not 404. *)
Lemma fallback_status_counterexample :
  resolve Sample.root Sample.fs "/does-not-exist" = None
  /\ Sample.fs (index_path Sample.root) = Some (File Sample.index_html)
  /\ data (get Sample.root Sample.guess_type Sample.fs "/does-not-exist")
     = FileBytes Sample.index_html
  /\ status (get Sample.root Sample.guess_type Sample.fs "/does-not-exist")
     = 200%Z
  /\ status (get Sample.root Sample.guess_type Sample.fs "/does-not-exist")
     <> 404%Z.
Proof. repeat split; try reflexivity. discriminate. Qed.

(** C1, amended. For every GET request to a non-empty path other than
    [/health] that does not resolve to an existing file under the asset
    root, when [<asset_root>/index.html] is a file, the response body is
    the bytes of the index document and the status is 200: the response
    is the one [send_from_directory] makes for [index.html]. *)
Theorem fallback_serves_index :
  forall (root_path : string) (guess_type : string -> option string)
         (fs : filesystem) (path_info : string) (content : list Byte.byte),
    posixpath.isabs root_path = true ->
    (path_info =? "") = false ->
    (PyStr.lstrip_sep path_info =? "health") = false ->
    resolve root_path fs path_info = None ->
    fs (index_path root_path) = Some (File content) ->
    get root_path guess_type fs path_info
    = mkResponse 200 (werkzeug.mimetype_of guess_type "index.html")
        (FileBytes content).
Proof.
  intros root_path guess_type fs path_info content Habs Hne Hnh Hres Hidx.
  rewrite get_unresolved by assumption.
  now rewrite Hidx.
Qed.

Lemma fallback_serves_index_witness :
  posixpath.isabs Sample.root = true
  /\ ("/does-not-exist" =? "") = false
  /\ (PyStr.lstrip_sep "/does-not-exist" =? "health") = false
  /\ resolve Sample.root Sample.fs "/does-not-exist" = None
  /\ Sample.fs (index_path Sample.root) = Some (File Sample.index_html)
  /\ get Sample.root Sample.guess_type Sample.fs "/does-not-exist"
     = mkResponse 200 "text/html" (FileBytes Sample.index_html).
Proof.
  do 5 (split; [reflexivity|]).
  apply (fallback_serves_index Sample.root Sample.guess_type Sample.fs
           "/does-not-exist" Sample.index_html); reflexivity.
Defined.

(** C6, as the specification has it, fails: [/health] resolves to no file
    where there is no asset root at all, [index.html] is absent, and the
    response is the health document with the status 200. *)
Lemma not_found_json_counterexample :
  resolve Sample.root Sample.fs_empty "/health" = None
  /\ Sample.fs_empty (index_path Sample.root) = None
  /\ get Sample.root Sample.guess_type Sample.fs_empty "/health"
     = health_response
  /\ get Sample.root Sample.guess_type Sample.fs_empty "/health"
     <> not_found_response.
Proof. repeat split; try reflexivity. discriminate. Qed.

(** C6, amended. For every GET request to a non-empty path other than
    [/health] that does not resolve to an existing file, when
    [<asset_root>/index.html] is absent, the response is the JSON error
    body [{"error": "not found"}] with the status 404. *)
Theorem fallback_without_index :
  forall (root_path : string) (guess_type : string -> option string)
         (fs : filesystem) (path_info : string),
    posixpath.isabs root_path = true ->
    (path_info =? "") = false ->
    (PyStr.lstrip_sep path_info =? "health") = false ->
    resolve root_path fs path_info = None ->
    fs (index_path root_path) = None ->
    get root_path guess_type fs path_info
    = mkResponse 404 "application/json"
        (JsonBody (JObj [("error", JStr "not found")])).
Proof.
  intros root_path guess_type fs path_info Habs Hne Hnh Hres Hidx.
  rewrite get_unresolved by assumption.
  now rewrite Hidx.
Qed.

Lemma fallback_without_index_witness :
  posixpath.isabs Sample.root = true
  /\ ("/does-not-exist" =? "") = false
  /\ (PyStr.lstrip_sep "/does-not-exist" =? "health") = false
  /\ resolve Sample.root Sample.fs_no_index "/does-not-exist" = None
  /\ Sample.fs_no_index (index_path Sample.root) = None
  /\ get Sample.root Sample.guess_type Sample.fs_no_index "/does-not-exist"
     = mkResponse 404 "application/json"
         (JsonBody (JObj [("error", JStr "not found")])).
Proof.
  do 5 (split; [reflexivity|]).
  apply (fallback_without_index Sample.root Sample.guess_type
           Sample.fs_no_index "/does-not-exist"); reflexivity.
Defined.

(** ** Static files *)

(** C3, as the specification has it, fails: on a build with a file named
    [health], the path [/health] resolves to that file, and the response
    is the health document, not the file. *)
Lemma static_file_counterexample :
  resolve Sample.root Sample.fs "/health" = Some Sample.health_file
  /\ data (get Sample.root Sample.guess_type Sample.fs "/health")
     = JsonBody (JObj [("status", JStr "ok")])
  /\ data (get Sample.root Sample.guess_type Sample.fs "/health")
     <> FileBytes Sample.health_file.
Proof. repeat split; try reflexivity. discriminate. Qed.

(** C3, amended. For every request path that the URL map gives to the
    static rule (so not [/health], which the health view answers) and that
    resolves to an existing readable file under the asset root, the
    response body equals that file's exact bytes and the status is 200. *)
Theorem static_file_served :
  forall (root_path : string) (guess_type : string -> option string)
         (fs : filesystem) (path_info filename : string)
         (content : list Byte.byte),
    posixpath.isabs root_path = true ->
    werkzeug.url_match path_info = Ok (werkzeug.ep_static filename) ->
    resolve root_path fs path_info = Some content ->
    data (get root_path guess_type fs path_info) = FileBytes content
    /\ status (get root_path guess_type fs path_info) = 200%Z.
Proof.
  intros root_path guess_type fs path_info filename content Habs Hm Hres.
  rewrite get_eq by exact Habs. rewrite Hm.
  apply url_match_static_iff in Hm as (_ & -> & _).
  unfold resolve in Hres.
  destruct (werkzeug.safe_join _ _) as [p|]; [|discriminate].
  destruct (fs p) as [[c|]|]; try discriminate.
  injection Hres as ->. split; reflexivity.
Qed.

Lemma static_file_served_witness :
  posixpath.isabs Sample.root = true
  /\ werkzeug.url_match "/assets/app.js"
     = Ok (werkzeug.ep_static "assets/app.js")
  /\ resolve Sample.root Sample.fs "/assets/app.js" = Some Sample.app_js
  /\ data (get Sample.root Sample.guess_type Sample.fs "/assets/app.js")
     = FileBytes Sample.app_js
  /\ status (get Sample.root Sample.guess_type Sample.fs "/assets/app.js")
     = 200%Z.
Proof.
  do 3 (split; [reflexivity|]).
  apply (static_file_served Sample.root Sample.guess_type Sample.fs
           "/assets/app.js" "assets/app.js" Sample.app_js); reflexivity.
Defined.

(** ** Path containment *)

(** The two sample file systems differ at [/etc/passwd] only, which is
    not under the asset root. *)
Lemma sample_agree_under_root :
  agree_under_root Sample.root Sample.fs Sample.fs_other.
Proof.
  intros q Hq.
  rewrite join_static_folder by (now apply contained_relative).
  reflexivity.
Qed.

(** A file served by the 404 handler is [index.html] under the asset
    root. *)
Lemma fallback_response_file root_path guess_type fs content :
  data (fallback_response guess_type (fs (index_path root_path)))
  = FileBytes content ->
  exists q, contained q = true
    /\ fs (posixpath.join (static_folder root_path) q) = Some (File content).
Proof.
  intros H. exists "index.html". split; [reflexivity|].
  fold (index_path root_path).
  destruct (fs (index_path root_path)) as [[c|]|]; try discriminate.
  simpl in H. now injection H as ->.
Qed.

(** C2. For every request path, traversal-style paths such as
    [/../../etc/passwd] included, a response body made of file content is
    the content of a file under the asset root (at a path made of the root
    and a relative path without a component [..]), and the response
    depends on no file outside the asset root: on two file systems that
    hold the same under the asset root, every request path gets the same
    response, whatever the two hold elsewhere. *)
Theorem no_read_outside_root :
  forall (root_path : string) (guess_type : string -> option string),
    posixpath.isabs root_path = true ->
    (forall (fs : filesystem) (path_info : string)
            (content : list Byte.byte),
        data (get root_path guess_type fs path_info) = FileBytes content ->
        exists q, contained q = true
          /\ fs (posixpath.join (static_folder root_path) q)
             = Some (File content))
    /\ (forall fs1 fs2 : filesystem,
          agree_under_root root_path fs1 fs2 ->
          forall path_info : string,
            get root_path guess_type fs1 path_info
            = get root_path guess_type fs2 path_info).
Proof.
  intros root_path guess_type Habs. split.
  - intros fs path_info content H.
    rewrite get_eq in H by exact Habs.
    destruct (werkzeug.url_match path_info) as [[| |filename]|e].
    + now apply fallback_response_file with (guess_type := guess_type).
    + discriminate.
    + destruct (werkzeug.safe_join _ filename) as [p|] eqn:E;
        [|now apply fallback_response_file with (guess_type := guess_type)].
      destruct (safe_join_static_folder _ _ _ E) as [q [Hq ->]].
      destruct (fs (posixpath.join (static_folder root_path) q))
        as [[c|]|] eqn:Efs;
        try now apply fallback_response_file with (guess_type := guess_type).
      simpl in H. injection H as ->. now exists q.
    + destruct e; try discriminate;
        now apply fallback_response_file with (guess_type := guess_type).
  - intros fs1 fs2 Hagree path_info.
    assert (Hidx : fs1 (index_path root_path) = fs2 (index_path root_path))
      by (apply Hagree; reflexivity).
    rewrite !get_eq by exact Habs. rewrite Hidx.
    destruct (werkzeug.url_match path_info) as [[| |filename]|e];
      try reflexivity.
    destruct (werkzeug.safe_join _ filename) as [p|] eqn:E; [|reflexivity].
    destruct (safe_join_static_folder _ _ _ E) as [q [Hq ->]].
    now rewrite (Hagree q Hq).
Qed.

Lemma no_read_outside_root_witness :
  posixpath.isabs Sample.root = true
  /\ Sample.fs "/etc/passwd" <> Sample.fs_other "/etc/passwd"
  /\ get Sample.root Sample.guess_type Sample.fs "/../../etc/passwd"
     = get Sample.root Sample.guess_type Sample.fs_other "/../../etc/passwd".
Proof.
  split; [reflexivity|]. split; [discriminate|].
  apply (proj2 (no_read_outside_root Sample.root Sample.guess_type eq_refl)
           Sample.fs Sample.fs_other sample_agree_under_root).
Defined.

(** ** Requests do not change anything *)

(** C8. The same GET request issued twice from the same file system gets
    the same response (body and status), and the file system after each
    of the two is the one before: no handler changes what a later request
    can see. *)
Theorem requests_idempotent :
  forall (root_path : string) (guess_type : string -> option string)
         (path_info : string) (fs : filesystem),
    let (r1, fs1) := wsgi_app root_path guess_type path_info fs in
    let (r2, fs2) := wsgi_app root_path guess_type path_info fs1 in
    r1 = r2 /\ fs1 = fs /\ fs2 = fs.
Proof.
  intros root_path guess_type path_info fs.
  pose proof (wsgi_app_read_only root_path guess_type path_info fs) as H.
  destruct (wsgi_app root_path guess_type path_info fs) as [r1 fs1] eqn:E.
  simpl in H. subst fs1. rewrite E. auto.
Qed.

(** ** Start-up *)



(** C10. When [PORT] is set to a string that [int] does not read as a
    decimal integer, start-up raises [ValueError], which nothing catches,
    before any server is started: the default port is not used. *)
Theorem main_bad_port_raises :
  forall (environ : environment) (servers : process) (s : string),
    environ "PORT" = Some s ->
    python.int_of_str s = None ->
    main environ servers = (Raise ValueError, servers).
Proof.
  intros environ servers s Hs Hn.
  unfold main, bind, lift, environ_get.
  rewrite Hs. simpl. now rewrite Hn.
Qed.

Lemma main_bad_port_raises_witness :
  Sample.environ_port "eighty" "PORT" = Some "eighty"
  /\ python.int_of_str "eighty" = None
  /\ main (Sample.environ_port "eighty") [] = (Raise ValueError, []).
Proof.
  do 2 (split; [reflexivity|]).
  apply (main_bad_port_raises (Sample.environ_port "eighty") [] "eighty");
    reflexivity.
Defined.

(** * Further properties of the application *)

(** ** The 404 handler at its edges *)

(** X2. When [<asset_root>/index.html] exists but is not a regular file,
    a GET request to a non-empty path other than [/health] that finds
    no file is answered with a server error: [os.path.exists] lets the 404
    handler go on, and its [send_from_directory] raises in the handler. *)
Theorem index_directory_server_error :
  forall (root_path : string) (guess_type : string -> option string)
         (fs : filesystem) (path_info : string),
    posixpath.isabs root_path = true ->
    (path_info =? "") = false ->
    (PyStr.lstrip_sep path_info =? "health") = false ->
    resolve root_path fs path_info = None ->
    fs (index_path root_path) = Some Dir ->
    get root_path guess_type fs path_info
    = mkResponse 500 "text/html" ErrorPage.
Proof.
  intros root_path guess_type fs path_info Habs Hne Hnh Hres Hidx.
  rewrite get_unresolved by assumption.
  now rewrite Hidx.
Qed.

Lemma index_directory_server_error_witness :
  posixpath.isabs Sample.root = true
  /\ ("/no/such/page" =? "") = false
  /\ (PyStr.lstrip_sep "/no/such/page" =? "health") = false
  /\ resolve Sample.root Broken.fs "/no/such/page" = None
  /\ Broken.fs (index_path Sample.root) = Some Dir
  /\ get Sample.root Sample.guess_type Broken.fs "/no/such/page"
     = mkResponse 500 "text/html" ErrorPage.
Proof.
  do 5 (split; [reflexivity|]).
  apply (index_directory_server_error Sample.root Sample.guess_type
           Broken.fs "/no/such/page"); reflexivity.
Defined.

(** X4. The status 404 is sent only when [<asset_root>/index.html] is
    absent, and then the response is the JSON error
    [{"error": "not found"}]. *)
Theorem not_found_only_without_index :
  forall (root_path : string) (guess_type : string -> option string)
         (fs : filesystem) (path_info : string),
    posixpath.isabs root_path = true ->
    status (get root_path guess_type fs path_info) = 404%Z ->
    fs (index_path root_path) = None
    /\ get root_path guess_type fs path_info
       = mkResponse 404 "application/json"
           (JsonBody (JObj [("error", JStr "not found")])).
Proof.
  intros root_path guess_type fs path_info Habs H.
  rewrite get_eq in H |- * by exact Habs.
  assert (Hfb : status (fallback_response guess_type
                          (fs (index_path root_path))) = 404%Z ->
                fs (index_path root_path) = None
                /\ fallback_response guess_type (fs (index_path root_path))
                   = not_found_response).
  { destruct (fs (index_path root_path)) as [[c|]|];
      [discriminate | discriminate | now split]. }
  destruct (werkzeug.url_match path_info) as [[| |filename]|e]; auto.
  - discriminate.
  - destruct (werkzeug.safe_join _ filename) as [p|]; auto.
    destruct (fs p) as [[c|]|]; auto. discriminate.
  - destruct e; auto. discriminate.
Qed.

Lemma not_found_only_without_index_witness :
  posixpath.isabs Sample.root = true
  /\ status (get Sample.root Sample.guess_type Sample.fs_no_index
               "/no/such/page") = 404%Z
  /\ Sample.fs_no_index (index_path Sample.root) = None.
Proof.
  do 2 (split; [reflexivity|]).
  apply (not_found_only_without_index Sample.root Sample.guess_type
           Sample.fs_no_index "/no/such/page"); reflexivity.
Defined.

(** ** The routes against each other *)

(** X5. A GET request to a non-empty path other than [/health] that
    finds no file gets the response of [GET /]: the index view and the 404
    handler answer alike on every file system. *)
Theorem miss_answers_like_root :
  forall (root_path : string) (guess_type : string -> option string)
         (fs : filesystem) (path_info : string),
    posixpath.isabs root_path = true ->
    (path_info =? "") = false ->
    (PyStr.lstrip_sep path_info =? "health") = false ->
    resolve root_path fs path_info = None ->
    get root_path guess_type fs path_info = get root_path guess_type fs "/".
Proof.
  intros root_path guess_type fs path_info Habs Hne Hnh Hres.
  rewrite get_unresolved by assumption.
  now rewrite (get_eq root_path guess_type Habs fs "/").
Qed.

Lemma miss_answers_like_root_witness :
  posixpath.isabs Sample.root = true
  /\ ("/no/such/page" =? "") = false
  /\ (PyStr.lstrip_sep "/no/such/page" =? "health") = false
  /\ resolve Sample.root Sample.fs "/no/such/page" = None
  /\ get Sample.root Sample.guess_type Sample.fs "/no/such/page"
     = get Sample.root Sample.guess_type Sample.fs "/".
Proof.
  do 4 (split; [reflexivity|]).
  apply (miss_answers_like_root Sample.root Sample.guess_type Sample.fs
           "/no/such/page"); reflexivity.
Defined.


(** ** Paths that climb, and paths with a slash at their end *)

Section StaticPaths.
Import PyStr.

(** [safe_join] refuses a file name that is above the directory after
    normalisation. *)
Lemma safe_join_climbing directory filename :
  (filename =? "") = false ->
  (posixpath.normpath filename =? "..")
  || startswith (posixpath.normpath filename) "../" = true ->
  werkzeug.safe_join directory filename = None.
Proof.
  intros Hne H. unfold werkzeug.safe_join. rewrite Hne. simpl negb. cbv iota.
  apply orb_true_iff in H as [H | H]; rewrite H;
    now rewrite ?orb_true_r.
Qed.

Lemma split_snoc_sep s : split (s ++ "/") = (split s ++ [""])%list.
Proof.
  induction s as [|c s IH]; [reflexivity|].
  change (String c s ++ "/") with (String c (s ++ "/")).
  cbn [split]. rewrite IH.
  destruct (Ascii.eqb c sep); [reflexivity|].
  pose proof (split_nonempty s) as Hs.
  destruct (split s) as [|h t]; [congruence | reflexivity].
Qed.

Lemma startswith_sep_snoc s :
  (s =? "") = false -> startswith (s ++ "/") "/" = startswith s "/".
Proof.
  destruct s as [|c s]; [discriminate|]. intros _.
  change (String c s ++ "/") with (String c (s ++ "/")).
  now rewrite !startswith_sep_cons.
Qed.

(** [normpath] drops a slash at the end of a relative path. *)
Lemma normpath_trailing_sep filename :
  (filename =? "") = false -> startswith filename "/" = false ->
  posixpath.normpath (filename ++ "/") = posixpath.normpath filename.
Proof.
  intros Hne Hrel. unfold posixpath.normpath, posixpath.initial_slashes.
  rewrite Hne, append_nonempty_r by discriminate.
  rewrite startswith_sep_snoc, Hrel by exact Hne.
  rewrite split_snoc_sep, fold_left_app. reflexivity.
Qed.

Lemma lstrip_sep_snoc s :
  (lstrip_sep s =? "") = false ->
  lstrip_sep (s ++ "/") = lstrip_sep s ++ "/".
Proof.
  induction s as [|c s IH]; [discriminate|].
  change (String c s ++ "/") with (String c (s ++ "/")).
  cbn [lstrip_sep]. destruct (Ascii.eqb c sep); [exact IH | reflexivity].
Qed.

Lemma has_LF_snoc s : werkzeug.has_LF (s ++ "/") = werkzeug.has_LF s.
Proof.
  induction s as [|c s IH]; [reflexivity|].
  change (String c s ++ "/") with (String c (s ++ "/")).
  cbn [werkzeug.has_LF]. now rewrite IH.
Qed.

Lemma path_converter_match_relative filename :
  werkzeug.path_converter_match filename = true ->
  startswith filename "/" = false.
Proof.
  destruct filename as [|c s]; [discriminate|].
  rewrite startswith_sep_cons. unfold werkzeug.path_converter_match.
  intros H. apply andb_true_iff in H as [H _]. now apply negb_true_iff.
Qed.

(** With a slash at its end, a path of the static rule stays one. *)
Lemma url_match_trailing_sep path_info filename :
  werkzeug.url_match path_info = Ok (werkzeug.ep_static filename) ->
  werkzeug.url_match (path_info ++ "/")
  = Ok (werkzeug.ep_static (filename ++ "/")).
Proof.
  intros H. apply url_match_static_iff in H as (H1 & -> & H3 & H4 & H5).
  apply url_match_static_iff. repeat split.
  - apply append_nonempty_r. discriminate.
  - symmetry. now apply lstrip_sep_snoc.
  - apply append_nonempty_r. discriminate.
  - apply String.eqb_neq. intros E.
    apply (f_equal endswith_sep) in E.
    rewrite endswith_sep_app in E by discriminate. discriminate.
  - destruct (lstrip_sep path_info) as [|c s]; [discriminate|].
    change (String c s ++ "/") with (String c (s ++ "/")).
    unfold werkzeug.path_converter_match in *. now rewrite has_LF_snoc.
Qed.

End StaticPaths.

(** X7. A request path of the static rule whose file name is, after
    normalisation, [..] or below [..] is never looked up: it gets the
    response of [GET /], on every file system. *)
Theorem climbing_path_answers_like_root :
  forall (root_path : string) (guess_type : string -> option string)
         (fs : filesystem) (path_info filename : string),
    posixpath.isabs root_path = true ->
    werkzeug.url_match path_info = Ok (werkzeug.ep_static filename) ->
    (posixpath.normpath filename =? "..")
    || PyStr.startswith (posixpath.normpath filename) "../" = true ->
    get root_path guess_type fs path_info = get root_path guess_type fs "/".
Proof.
  intros root_path guess_type fs path_info filename Habs Hm Hup.
  rewrite (get_eq root_path guess_type Habs fs "/").
  rewrite get_eq by exact Habs. rewrite Hm.
  apply url_match_static_iff in Hm as (_ & _ & Hne & _).
  now rewrite safe_join_climbing.
Qed.

Lemma climbing_path_answers_like_root_witness :
  posixpath.isabs Sample.root = true
  /\ werkzeug.url_match "/assets/../../../etc/passwd"
     = Ok (werkzeug.ep_static "assets/../../../etc/passwd")
  /\ posixpath.normpath "assets/../../../etc/passwd" = "../../etc/passwd"
  /\ get Sample.root Sample.guess_type Sample.fs "/assets/../../../etc/passwd"
     = get Sample.root Sample.guess_type Sample.fs "/".
Proof.
  do 3 (split; [reflexivity|]).
  apply (climbing_path_answers_like_root Sample.root Sample.guess_type
           Sample.fs "/assets/../../../etc/passwd"
           "assets/../../../etc/passwd"); reflexivity.
Defined.

(** X8. A slash at the end of a request path of the static rule changes
    nothing: the path with the slash gets the response of the path without
    it, so a file is also served under its name followed by a slash. *)
Theorem trailing_slash_ignored :
  forall (root_path : string) (guess_type : string -> option string)
         (fs : filesystem) (path_info filename : string),
    posixpath.isabs root_path = true ->
    werkzeug.url_match path_info = Ok (werkzeug.ep_static filename) ->
    get root_path guess_type fs (path_info ++ "/")
    = get root_path guess_type fs path_info.
Proof.
  intros root_path guess_type fs path_info filename Habs Hm.
  rewrite !get_eq by exact Habs.
  rewrite (url_match_trailing_sep _ _ Hm), Hm.
  apply url_match_static_iff in Hm as (_ & _ & Hne & _ & Hpc).
  replace (werkzeug.safe_join (static_folder root_path) (filename ++ "/"))
    with (werkzeug.safe_join (static_folder root_path) filename);
    [reflexivity|].
  unfold werkzeug.safe_join.
  rewrite Hne, append_nonempty_r by discriminate.
  now rewrite normpath_trailing_sep
    by (auto using path_converter_match_relative).
Qed.

Lemma trailing_slash_ignored_witness :
  posixpath.isabs Sample.root = true
  /\ werkzeug.url_match "/assets/app.js"
     = Ok (werkzeug.ep_static "assets/app.js")
  /\ get Sample.root Sample.guess_type Sample.fs "/assets/app.js/"
     = get Sample.root Sample.guess_type Sample.fs "/assets/app.js".
Proof.
  do 2 (split; [reflexivity|]).
  apply (trailing_slash_ignored Sample.root Sample.guess_type Sample.fs
           "/assets/app.js" "assets/app.js"); reflexivity.
Defined.

(** ** The [PORT] variable *)

Section PortFacts.

Lemma lstrip_blank s :
  forallb python.is_space (list_ascii_of_string s) = true ->
  python.lstrip s = "".
Proof.
  induction s as [|c s IH]; [reflexivity|].
  cbn [list_ascii_of_string forallb]. intros H.
  apply andb_true_iff in H as [Hc Hs].
  rewrite lstrip_cons, Hc. now apply IH.
Qed.

Lemma int_of_str_blank s :
  forallb python.is_space (list_ascii_of_string s) = true ->
  python.int_of_str s = None.
Proof.
  intros H. unfold python.int_of_str. now rewrite lstrip_blank.
Qed.

Lemma decimal_string_nonempty ds : ds <> [] -> decimal_string ds <> "".
Proof.
  destruct ds as [|d ds]; [congruence|].
  rewrite decimal_string_cons. discriminate.
Qed.

(** [int] reads a numeral with a minus in front as the opposite of its
    value. *)
Lemma int_of_minus_decimal_string ds :
  ds <> [] -> Forall (fun d => (d < 10)%nat) ds ->
  (length ds <= python.int_max_str_digits)%nat ->
  python.int_of_str (String "-" (decimal_string ds))
  = Some (- decimal_value ds)%Z.
Proof.
  intros Hne H Hlen. unfold python.int_of_str.
  rewrite lstrip_cons. change (python.is_space "-") with false. cbv iota.
  rewrite rstrip_cons, rstrip_decimal by assumption.
  pose proof (decimal_string_nonempty ds Hne) as Hs.
  pose proof (digits_decimal ds H 0%Z false 0%nat (or_introl Hne)) as Hd.
  destruct (decimal_string ds) as [|c s] eqn:E; [congruence|].
  change (python.split_sign (String "-" (String c s)))
    with (true, String c s).
  cbv beta iota. rewrite Hd. apply Nat.ltb_ge in Hlen.
  change (0 + length ds)%nat with (length ds).
  now rewrite Hlen.
Qed.

Lemma digits_below_ten ds :
  forallb (fun d => Nat.ltb d 10) ds = true ->
  Forall (fun d => (d < 10)%nat) ds.
Proof.
  intros H. apply Forall_forall. intros d Hd.
  rewrite forallb_forall in H. now apply Nat.ltb_lt, H.
Qed.

End PortFacts.

(** X9. When [PORT] is set to a decimal numeral (one to 4300 digits,
    leading zeros allowed), start-up starts one server on [0.0.0.0] with the
    value of the numeral as its port and debug on, after the servers there
    were. *)
Theorem main_decimal_port :
  forall (environ : environment) (servers : process) (ds : list nat),
    environ "PORT" = Some (decimal_string ds) ->
    forallb (fun d => Nat.ltb d 10) ds = true ->
    (1 <= length ds <= python.int_max_str_digits)%nat ->
    main environ servers
    = (Ok tt, (servers ++ [mkServer "0.0.0.0" (decimal_value ds) true])%list).
Proof.
  intros environ servers ds Hs Hds [Hlo Hhi].
  unfold main, bind, lift, environ_get. rewrite Hs. unfold python.int.
  rewrite int_of_decimal_string; [reflexivity | | now apply digits_below_ten
                                  | exact Hhi].
  intros ->. simpl in Hlo. lia.
Qed.

Lemma main_decimal_port_witness :
  Sample.environ_port "08080" "PORT" = Some (decimal_string [0; 8; 0; 8; 0])
  /\ decimal_value [0; 8; 0; 8; 0] = 8080%Z
  /\ main (Sample.environ_port "08080") []
     = (Ok tt, [mkServer "0.0.0.0" 8080 true]).
Proof.
  do 2 (split; [reflexivity|]).
  apply (main_decimal_port (Sample.environ_port "08080") []
           [0; 8; 0; 8; 0]%nat);
    [reflexivity | reflexivity | unfold python.int_max_str_digits; simpl; lia].
Defined.

(** X10. The port is not checked against a range: when [PORT] is a
    minus sign followed by a decimal numeral, start-up starts the server
    with the opposite of the numeral's value as its port. *)
Theorem main_negative_port :
  forall (environ : environment) (servers : process) (ds : list nat),
    environ "PORT" = Some (String "-" (decimal_string ds)) ->
    forallb (fun d => Nat.ltb d 10) ds = true ->
    (1 <= length ds <= python.int_max_str_digits)%nat ->
    main environ servers
    = (Ok tt,
       (servers ++ [mkServer "0.0.0.0" (- decimal_value ds) true])%list).
Proof.
  intros environ servers ds Hs Hds [Hlo Hhi].
  unfold main, bind, lift, environ_get. rewrite Hs. unfold python.int.
  rewrite int_of_minus_decimal_string;
    [reflexivity | | now apply digits_below_ten | exact Hhi].
  intros ->. simpl in Hlo. lia.
Qed.

Lemma main_negative_port_witness :
  Sample.environ_port "-1" "PORT" = Some (String "-" (decimal_string [1]))
  /\ main (Sample.environ_port "-1") []
     = (Ok tt, [mkServer "0.0.0.0" (-1) true]).
Proof.
  split; [reflexivity|].
  apply (main_negative_port (Sample.environ_port "-1") [] [1]%nat);
    [reflexivity | reflexivity | unfold python.int_max_str_digits; simpl; lia].
Defined.

(** X11. When [PORT] holds a character that is neither white space, a
    digit, an underscore nor a sign, start-up raises [ValueError] and
    starts no server. *)
Theorem main_foreign_char_raises :
  forall (environ : environment) (servers : process) (s : string),
    environ "PORT" = Some s ->
    has_foreign_char s = true ->
    main environ servers = (Raise ValueError, servers).
Proof.
  intros environ servers s Hs Hf.
  unfold main, bind, lift, environ_get. rewrite Hs. unfold python.int.
  now rewrite int_of_str_foreign_char.
Qed.

Lemma main_foreign_char_raises_witness :
  Sample.environ_port "8080/tcp" "PORT" = Some "8080/tcp"
  /\ has_foreign_char "8080/tcp" = true
  /\ main (Sample.environ_port "8080/tcp") [] = (Raise ValueError, []).
Proof.
  do 2 (split; [reflexivity|]).
  apply (main_foreign_char_raises (Sample.environ_port "8080/tcp") []
           "8080/tcp"); reflexivity.
Defined.

(** X12. When [PORT] is set but empty, or made of white space only,
    start-up raises [ValueError] and starts no server: the default 5001 is
    for an unset variable only. *)
Theorem main_blank_port_raises :
  forall (environ : environment) (servers : process) (s : string),
    environ "PORT" = Some s ->
    forallb python.is_space (list_ascii_of_string s) = true ->
    main environ servers = (Raise ValueError, servers).
Proof.
  intros environ servers s Hs Hb.
  unfold main, bind, lift, environ_get. rewrite Hs. unfold python.int.
  now rewrite int_of_str_blank.
Qed.

Lemma main_blank_port_raises_witness :
  Sample.environ_port "" "PORT" = Some ""
  /\ forallb python.is_space (list_ascii_of_string "") = true
  /\ main (Sample.environ_port "") [] = (Raise ValueError, []).
Proof.
  do 2 (split; [reflexivity|]).
  apply (main_blank_port_raises (Sample.environ_port "") [] "");
    reflexivity.
Defined.
